(** * The Terminaltables output handler of cement (cement/ext/ext_terminaltables.py)

    A shallow embedding of [TerminaltablesOutputHandler]: its [Meta] data,
    the [_config] wrapper and [render].  The handler is glue between the
    application's configuration and the table classes of the third-party
    [terminaltables] package; both collaborators are taken as parameters
    ([App], [TableLib]).  Python list objects are mutable and shared, so they
    live in a heap and [render] is a computation over that heap.  What the
    table classes draw is not in the repository; where a property is about
    the drawn text, the classes are the table-drawing core of the
    specification ([TableRenderer], [core_tables]). *)

From Stdlib Require Import ZArith Ascii String List DecimalString.
From stdpp Require Import base gmap strings list.

Set Warnings "-register-all".

(** ** Python values *)

(** The identity of a list object. *)
Definition loc := positive.

(** The values the handler can be handed.  A list is a reference to a heap
    cell; the other values are immutable. *)
Inductive value : Type :=
| VNone
| VBool (b : bool)
| VInt (n : Z)
| VStr (s : string)
| VTuple (vs : list value)
| VList (l : loc).

(** The contents of every list object; a location that was never written
    holds the empty list. *)
Abbreviation heap := (gmap loc (list value)).

(** The line break character of ['\n']. *)
Definition nl : string := String (ascii_of_nat 10) EmptyString.

(** A Python [str] is held as the string of its UTF-8 bytes.  A byte of the
    form 10xxxxxx continues a character; every other byte starts one. *)
Definition is_continuation (c : ascii) : bool :=
  match c with
  | Ascii _ _ _ _ _ _ b6 b7 => b7 && negb b6
  end.

(** [len(s)] of a [str]: its number of characters. *)
Fixpoint char_count (s : string) : nat :=
  match s with
  | EmptyString => 0
  | String c r => (if is_continuation c then 0 else 1) + char_count r
  end.

(** ** Exceptions and the computation monad *)

(** The exceptions [render] can end with: the three its own statements can
    raise, and whatever a collaborator raises, kept by class name. *)
Inductive exn : Type :=
| KeyError (key : value)
| TypeError (msg : string)
| AttributeError (msg : string)
| Foreign (cls : string) (msg : string).

Definition exn_class (e : exn) : string :=
  match e with
  | KeyError _ => "KeyError"
  | TypeError _ => "TypeError"
  | AttributeError _ => "AttributeError"
  | Foreign cls _ => cls
  end.

Inductive result (A : Type) : Type :=
| Ok (a : A)
| Raise (e : exn).
Arguments Ok {A} a.
Arguments Raise {A} e.

Definition result_map {A B : Type} (f : A -> B) (r : result A) : result B :=
  match r with
  | Ok a => Ok (f a)
  | Raise e => Raise e
  end.

(** A statement runs on the heap and ends normally or with an exception; the
    heap it leaves behind is kept in both cases. *)
Definition M (A : Type) : Type := heap -> result A * heap.

Definition ret {A : Type} (a : A) : M A := fun h => (Ok a, h).

Definition raise {A : Type} (e : exn) : M A := fun h => (Raise e, h).

Definition bind {A B : Type} (m : M A) (k : A -> M B) : M B :=
  fun h =>
    match m h with
    | (Ok a, h') => k a h'
    | (Raise e, h') => (Raise e, h')
    end.

(** A pure step that may raise. *)
Definition lift {A : Type} (r : result A) : M A := fun h => (r, h).

(** A step that reads the heap. *)
Definition reads {A : Type} (f : heap -> result A) : M A := fun h => (f h, h).

Notation "x <- m ;; k" := (bind m (fun x => k))
  (at level 100, m at next level, right associativity).
Notation "m ;;; k" := (bind m (fun _ => k))
  (at level 100, right associativity).

(** ** The Python operations render uses *)

(** [bool(v)]. *)
Definition truthy (h : heap) (v : value) : bool :=
  match v with
  | VNone => false
  | VBool b => b
  | VInt n => negb (Z.eqb n 0)
  | VStr s => negb (Nat.eqb (String.length s) 0)
  | VTuple vs => negb (Nat.eqb (length vs) 0)
  | VList l => negb (Nat.eqb (length (h !!! l)) 0)
  end.

(** [isinstance(v, list)]. *)
Definition isinstance_list (v : value) : bool :=
  match v with
  | VList _ => true
  | _ => false
  end.

(** [v is True]. *)
Definition is_True (v : value) : bool :=
  match v with
  | VBool true => true
  | _ => false
  end.

(** [data.insert(0, x)]: a list object is extended in place; the other values
    of the model ([None], a bool, an int, a str, a tuple) have no [insert]
    attribute.  Objects of other classes that have one are outside the
    model. *)
Definition insert0 (data x : value) : M unit :=
  match data with
  | VList l => fun h => (Ok tt, <[l := x :: h !!! l]> h)
  | _ => raise (AttributeError "insert")
  end.

(** Whether a value can be a dictionary key: lists cannot, a tuple can when
    its items can. *)
Fixpoint hashable (v : value) : bool :=
  match v with
  | VList _ => false
  | VTuple vs => forallb hashable vs
  | _ => true
  end.

(** ** The collaborators *)

(** The application: [app.config.get(section, key)]. *)
Record App : Type := { config_get : string -> string -> result value }.

(** The three classes imported from [terminaltables] (line 101). *)
Inductive table_class : Type := AsciiTable | SingleTable | DoubleTable.

(** The table library: [table cls h data title] is the string
    [cls(data, title).table], or the exception the class raises.  The classes
    read the rows from the heap and change nothing. *)
Record TableLib : Type :=
  { table : table_class -> heap -> value -> value -> result string }.

(** ** Handler meta-data (class Meta, lines 123-150) *)

Record Meta : Type :=
  { label : string;
    config_section : string;
    config_defaults : gmap string value;
    padding : value;
    style : value;
    overridable : bool }.

(** [Meta.style_map]. *)
Definition style_map : gmap string table_class :=
  <["ascii" := AsciiTable]> (<["single" := SingleTable]> (<["double" := DoubleTable]> ∅)).

(** The meta-data as the class declares it; the configuration section of an
    output handler labelled [terminaltables] is [output.terminaltables]. *)
Definition TerminaltablesMeta : Meta :=
  {| label := "terminaltables";
     config_section := "output.terminaltables";
     config_defaults := <["style" := VStr "ascii"]> ∅;
     padding := VBool true;
     style := VStr "ascii";
     overridable := false |}.

Record Handler : Type := { app : App; _meta : Meta }.

(** [self._meta.style_map[style]]: an unhashable key is a [TypeError], a key
    that is not in the dictionary a [KeyError] carrying the key. *)
Definition style_map_getitem (key : value) : result table_class :=
  if hashable key then
    match key with
    | VStr s =>
        match style_map !! s with
        | Some cls => Ok cls
        | None => Raise (KeyError key)
        end
    | _ => Raise (KeyError key)
    end
  else Raise (TypeError "unhashable type").

(** ** The handler's methods *)

(** [_config(key, default=None)] (lines 152-162). *)
Definition _config (self : Handler) (key : string) (default : value) : result value :=
  config_get (app self) (config_section (_meta self)) key.

(** [render(data, headers=[], title=None, **kw)] (lines 164-194).  An omitted
    [headers] is the empty list object made with the function, an omitted
    [title] is [None]; [kw] holds the extra keyword arguments. *)
Definition render (lib : TableLib) (self : Handler)
    (data headers title : value) (kw : list (string * value)) : M string :=
  b <- reads (fun h => Ok (truthy h headers && isinstance_list headers)) ;;
  (if b : bool then insert0 data headers else ret tt) ;;;
  sty <- lift (_config self "style" (style (_meta self))) ;;
  cls <- lift (style_map_getitem sty) ;;
  tt_table <- reads (fun h => table lib cls h data title) ;;
  let out := tt_table +:+ nl in
  let out := if is_True (padding (_meta self)) then nl +:+ out +:+ nl else out in
  ret out.

(** Modelled from the spec: the hosting framework's configuration (cement's
    config handler and the handler set-up that merges [Meta.config_defaults]
    into the handler's section, neither under src/), of which the spec says
    that the style is read from a configuration key whose default value is
    "ascii".  [user] holds the keys configured in the handler's section; a key
    that is not configured falls back on the handler's declared defaults. *)
Definition configured (user : gmap string value) (m : Meta) : App :=
  {| config_get := fun section key =>
       if String.eqb section (config_section m) then
         match user !! key with
         | Some v => Ok v
         | None =>
             match config_defaults m !! key with
             | Some v => Ok v
             | None => Raise (Foreign "NoOptionError" key)
             end
         end
       else Raise (Foreign "NoSectionError" section) |}.

(** ** Vocabulary of the statements *)

(** The guard of line 180. *)
Definition inserts (h : heap) (headers : value) : bool :=
  truthy h headers && isinstance_list headers.

(** The heap that lines 180-181 leave behind. *)
Definition heap_after (h : heap) (data headers : value) : heap :=
  if inserts h headers then
    match data with
    | VList l => <[l := headers :: h !!! l]> h
    | _ => h
    end
  else h.

(** Lines 180-181 end normally: nothing is inserted, or [data] is a list. *)
Definition insertion_ok (h : heap) (data headers : value) : bool :=
  negb (inserts h headers) || isinstance_list data.

(** Lines 189-192: the returned string, from the text of the table. *)
Definition wrap (self : Handler) (t : string) : string :=
  let out := t +:+ nl in
  if is_True (padding (_meta self)) then nl +:+ out +:+ nl else out.

(** The style names of [style_map]. *)
Definition recognized (sty : value) : bool :=
  match sty with
  | VStr s => String.eqb s "ascii" || String.eqb s "single" || String.eqb s "double"
  | _ => false
  end.

(** The same handler with another [Meta.padding], another [Meta.style]. *)
Definition set_padding (p : value) (self : Handler) : Handler :=
  {| app := app self;
     _meta := {| label := label (_meta self);
                 config_section := config_section (_meta self);
                 config_defaults := config_defaults (_meta self);
                 padding := p;
                 style := style (_meta self);
                 overridable := overridable (_meta self) |} |}.

Definition set_style (s : value) (self : Handler) : Handler :=
  {| app := app self;
     _meta := {| label := label (_meta self);
                 config_section := config_section (_meta self);
                 config_defaults := config_defaults (_meta self);
                 padding := padding (_meta self);
                 style := s;
                 overridable := overridable (_meta self) |} |}.

(** [len(v)], for the values that have a length. *)
Definition len (h : heap) (v : value) : option nat :=
  match v with
  | VList l => Some (length (h !!! l))
  | VTuple vs => Some (length vs)
  | VStr s => Some (char_count s)
  | _ => None
  end.

(** The rows of a table and their cell counts. *)
Definition rows_of (h : heap) (data : value) : list value :=
  match data with
  | VList l => h !!! l
  | VTuple vs => vs
  | _ => []
  end.

Definition cell_counts (h : heap) (data : value) : list (option nat) :=
  map (len h) (rows_of h data).

Definition same_count (a b : option nat) : bool :=
  match a, b with
  | Some x, Some y => Nat.eqb x y
  | _, _ => false
  end.

(** Some row has another cell count than the first one. *)
Definition ragged (h : heap) (data : value) : bool :=
  match cell_counts h data with
  | [] => false
  | c :: cs => negb (forallb (same_count c) cs)
  end.

(** ** Lines of a string *)

Definition is_nl (c : ascii) : bool := Ascii.eqb c (ascii_of_nat 10).

(** [s.split('\n')]. *)
Fixpoint split_nl (s : string) : list string :=
  match s with
  | EmptyString => [EmptyString]
  | String c r =>
      if is_nl c then EmptyString :: split_nl r
      else
        match split_nl r with
        | x :: xs => String c x :: xs
        | [] => [String c EmptyString]
        end
  end.

(** The lines of [s], a line ending at each ['\n']: the pieces of
    [s.split('\n')], without the empty piece that follows a final line
    break. *)
Definition lines_of (s : string) : list string :=
  let ls := split_nl s in
  match last ls with
  | Some EmptyString => removelast ls
  | _ => ls
  end.

(** All the lines have the same number of characters. *)
Definition same_width (ls : list string) : bool :=
  match ls with
  | [] => true
  | l :: rest => forallb (fun x => Nat.eqb (char_count x) (char_count l)) rest
  end.

(** ** Sample collaborators *)

(** An application whose configuration holds [sty] under every key. *)
Definition app_with_style (sty : value) : App :=
  {| config_get := fun _ _ => Ok sty |}.

Definition handler_with_style (sty : value) : Handler :=
  {| app := app_with_style sty; _meta := TerminaltablesMeta |}.

(** The frame of the table whose one cell reads X, in the Ascii style: top
    border, the row, bottom border. *)
Definition frame_X : string :=
  "+---+" +:+ nl +:+ "| X |" +:+ nl +:+ "+---+".

(** A table library to run [render] on that table: every class answers with
    [frame_X]. *)
Definition tables_X : TableLib :=
  {| table := fun _ _ _ _ => Ok frame_X |}.

(** ** Sample heaps *)

(** The table [[X]]: the list 1 holds one row, the list 2, whose one cell
    reads X. *)
Definition h_X : heap :=
  <[1%positive := [VList 2%positive]]> (<[2%positive := [VStr "X"]]> ∅).

(** Contacts: the list 1 holds the row 3, the list 2 is the header row. *)
Definition h_contacts : heap :=
  <[1%positive := [VList 3%positive]]>
    (<[2%positive := [VStr "NAME"; VStr "AGE"]]>
       (<[3%positive := [VStr "Ann"; VStr "30"]]> ∅)).


(** ** The table-drawing core *)

Definition result_bind {A B : Type} (r : result A) (k : A -> result B) : result B :=
  match r with
  | Ok a => k a
  | Raise e => Raise e
  end.

Fixpoint result_all {A B : Type} (f : A -> result B) (xs : list A) : result (list B) :=
  match xs with
  | [] => Ok []
  | x :: rest =>
      result_bind (f x) (fun y =>
      result_bind (result_all f rest) (fun ys => Ok (y :: ys)))
  end.

(** [s] dropped of its first [k] characters. *)
Fixpoint drop_chars (k : nat) (s : string) : string :=
  match s with
  | EmptyString => EmptyString
  | String c r =>
      if is_continuation c then drop_chars k r
      else
        match k with
        | 0 => s
        | S k' => drop_chars k' r
        end
  end.

(** [g * n]. *)
Fixpoint repeat_str (g : string) (n : nat) : string :=
  match n with
  | 0 => EmptyString
  | S n' => g +:+ repeat_str g n'
  end.

(** [sep.join(parts)]. *)
Fixpoint join (sep : string) (parts : list string) : string :=
  match parts with
  | [] => EmptyString
  | [p] => p
  | p :: rest => p +:+ sep +:+ join sep rest
  end.

(** A number in decimal. *)
Definition decimal (n : nat) : string := DecimalString.NilZero.string_of_uint (Nat.to_uint n).

Module TableRenderer.

(** Modelled from the spec: the text-table rendering core that the spec
    describes in its sections 3 and 4.1 and that the handler delegates to
    (the [terminaltables] classes, not under src/).  Where the spec leaves a
    choice, this model takes one: the glyph sets are the usual box-drawing
    characters, the title is left-aligned in the top border, and a title
    that is wider than the table widens the table at its right end
    ([extra] characters). *)

Inductive BorderStyle : Type := Ascii | Single | Double.

(** The glyphs of a style: corners, junctions, horizontal and vertical
    lines. *)
Record glyphs : Type :=
  { top_left : string; top_mid : string; top_right : string;
    sep_left : string; sep_mid : string; sep_right : string;
    bottom_left : string; bottom_mid : string; bottom_right : string;
    horizontal : string; vertical : string }.

Definition glyphs_of (style : BorderStyle) : glyphs :=
  match style with
  | Ascii =>
      {| top_left := "+"; top_mid := "+"; top_right := "+";
         sep_left := "+"; sep_mid := "+"; sep_right := "+";
         bottom_left := "+"; bottom_mid := "+"; bottom_right := "+";
         horizontal := "-"; vertical := "|" |}
  | Single =>
      {| top_left := "┌"; top_mid := "┬"; top_right := "┐";
         sep_left := "├"; sep_mid := "┼"; sep_right := "┤";
         bottom_left := "└"; bottom_mid := "┴"; bottom_right := "┘";
         horizontal := "─"; vertical := "│" |}
  | Double =>
      {| top_left := "╔"; top_mid := "╦"; top_right := "╗";
         sep_left := "╠"; sep_mid := "╬"; sep_right := "╣";
         bottom_left := "╚"; bottom_mid := "╩"; bottom_right := "╝";
         horizontal := "═"; vertical := "║" |}
  end.

(** Step 1: the display lines of a cell, and its height. *)
Definition cell_lines (c : string) : list string := split_nl c.

Definition cell_height (c : string) : nat := length (cell_lines c).

Definition cell_width (c : string) : nat := list_max (map char_count (cell_lines c)).

(** Step 2: the width of each of the [n] columns, over all the rows. *)
Fixpoint col_widths (n : nat) (rows : list (list string)) : list nat :=
  match rows with
  | [] => repeat 0 n
  | r :: rest => zip_with Nat.max (map cell_width r) (col_widths n rest)
  end.

(** Step 3: the height of a row. *)
Definition row_height (r : list string) : nat := list_max (map cell_height r).

(** The width of the table between its left and right border, before a
    title widens it: each column with a margin of one space on each side,
    and a separator between two columns. *)
Definition natural_width (ws : list nat) : nat :=
  list_sum (map (fun w => w + 2) ws) + (length ws - 1).

(** What a title adds to the width. *)
Definition extra_width (title : option string) (ws : list nat) : nat :=
  match title with
  | None => 0
  | Some t => char_count t - natural_width ws
  end.

(** A border between its two corners. *)
Definition inner_border (mid hz : string) (ws : list nat) (extra : nat) : string :=
  join mid (map (fun w => repeat_str hz (w + 2)) ws) +:+ repeat_str hz extra.

Definition border_line (left mid right hz : string) (ws : list nat) (extra : nat)
    : string :=
  left +:+ inner_border mid hz ws extra +:+ right.

(** The top border, with the title laid over its left end. *)
Definition top_line (g : glyphs) (title : option string) (ws : list nat) (extra : nat)
    : string :=
  match title with
  | None => border_line (top_left g) (top_mid g) (top_right g) (horizontal g) ws extra
  | Some t =>
      top_left g
      +:+ (t +:+ drop_chars (char_count t)
                   (inner_border (top_mid g) (horizontal g) ws extra))
      +:+ top_right g
  end.

Definition sep_line (g : glyphs) (ws : list nat) (extra : nat) : string :=
  border_line (sep_left g) (sep_mid g) (sep_right g) (horizontal g) ws extra.

Definition bottom_line (g : glyphs) (ws : list nat) (extra : nat) : string :=
  border_line (bottom_left g) (bottom_mid g) (bottom_right g) (horizontal g) ws extra.

(** Step 4: a display line of a cell in its column, one space of margin on
    each side. *)
Definition pad_cell (w : nat) (line : string) : string :=
  " " +:+ line +:+ repeat_str " " (w - char_count line) +:+ " ".

(** The [k]th physical line of a row; a cell that has fewer lines shows a
    blank one. *)
Definition physical_line (g : glyphs) (ws : list nat) (extra : nat)
    (r : list string) (k : nat) : string :=
  vertical g
  +:+ (join (vertical g)
         (zip_with (fun w c => pad_cell w (nth k (cell_lines c) EmptyString)) ws r)
       +:+ repeat_str " " extra)
  +:+ vertical g.

Definition row_lines (g : glyphs) (ws : list nat) (extra : nat) (r : list string)
    : list string :=
  map (physical_line g ws extra r) (seq 0 (row_height r)).

(** The lines of the frame: top border, the header row and its separator
    when there are headers, the data rows with no separator between them,
    bottom border. *)
Definition frame_lines (g : glyphs) (title : option string) (ws : list nat)
    (headers : option (list string)) (rows : list (list string)) : list string :=
  let extra := extra_width title ws in
  top_line g title ws extra
  :: match headers with
     | Some hd => row_lines g ws extra hd ++ [sep_line g ws extra]
     | None => []
     end
  ++ concat (map (row_lines g ws extra) rows)
  ++ [bottom_line g ws extra].

(** Every row has the expected cell count, or a [ShapeError] tells the
    index of the first row that has not, with the expected and the actual
    count. *)
Fixpoint check_shape (expected : nat) (i : nat) (rows : list (list string))
    : result unit :=
  match rows with
  | [] => Ok tt
  | r :: rest =>
      if Nat.eqb (length r) expected then check_shape expected (S i) rest
      else
        Raise (Foreign "ShapeError"
                 ("row " +:+ decimal i +:+ ": expected " +:+ decimal expected
                  +:+ " cells, got " +:+ decimal (length r)))
  end.

(** [render(rows, headers, title, style)]. *)
Definition render (rows : list (list string)) (headers : option (list string))
    (title : option string) (style : BorderStyle) : result string :=
  let all := match headers with Some hd => hd :: rows | None => rows end in
  match all with
  | [] => Ok (join nl (frame_lines (glyphs_of style) title [] None []))
  | first :: _ =>
      let n := length first in
      result_bind (check_shape n 0 rows) (fun _ =>
      if Nat.eqb n 0 then Raise (Foreign "EmptyColumnSetError" "the table has no column")
      else Ok (join nl (frame_lines (glyphs_of style) title (col_widths n all)
                          headers rows)))
  end.

End TableRenderer.

(** ** The table classes, drawn by the core *)

(** The items of a list or a tuple. *)
Definition items (h : heap) (v : value) : result (list value) :=
  match v with
  | VList l => Ok (h !!! l)
  | VTuple vs => Ok vs
  | _ => Raise (Foreign "TypeError" "not a sequence")
  end.

(** A cell of the core is a string. *)
Definition cell_of (v : value) : result string :=
  match v with
  | VStr s => Ok s
  | _ => Raise (Foreign "TypeError" "a cell is not a string")
  end.

Definition row_of (h : heap) (v : value) : result (list string) :=
  result_bind (items h v) (result_all cell_of).

Definition table_of (h : heap) (data : value) : result (list (list string)) :=
  result_bind (items h data) (result_all (row_of h)).

Definition title_of (v : value) : result (option string) :=
  match v with
  | VNone => Ok None
  | VStr s => Ok (Some s)
  | _ => Raise (Foreign "TypeError" "the title is not a string")
  end.

Definition border_style (cls : table_class) : TableRenderer.BorderStyle :=
  match cls with
  | AsciiTable => TableRenderer.Ascii
  | SingleTable => TableRenderer.Single
  | DoubleTable => TableRenderer.Double
  end.

(** Modelled from the spec: how a table class, which is handed the rows
    alone, tells the header row: it is the first row (the docstring of
    [render], lines 175-176: without headers the first element of the data
    list is used) when rows follow it; a table of one row is that row between
    the two borders (the spec's example of the one-cell table). *)
Definition header_and_body (rows : list (list string))
    : option (list string) * list (list string) :=
  match rows with
  | hd :: ((_ :: _) as rest) => (Some hd, rest)
  | _ => (None, rows)
  end.

(** Modelled from the spec: the classes [AsciiTable], [SingleTable] and
    [DoubleTable] (the [terminaltables] package, not under src/) as the core
    with the border style of the class. *)
Definition core_tables : TableLib :=
  {| table := fun cls h data title =>
       result_bind (table_of h data) (fun rows =>
       result_bind (title_of title) (fun t =>
       TableRenderer.render (snd (header_and_body rows)) (fst (header_and_body rows)) t
         (border_style cls))) |}.

(** The rows and the header row, as the core takes them for its widths. *)
Definition all_rows (headers : option (list string)) (rows : list (list string))
    : list (list string) :=
  match headers with
  | Some hd => hd :: rows
  | None => rows
  end.

(** The column widths the core draws with. *)
Definition widths_of (headers : option (list string)) (rows : list (list string))
    : list nat :=
  match all_rows headers rows with
  | [] => []
  | first :: _ => TableRenderer.col_widths (length first) (all_rows headers rows)
  end.

(** The title is absent or has one line. *)
Definition has_nl (s : string) : bool :=
  existsb is_nl (list_ascii_of_string s).

Definition one_line_title (title : value) : bool :=
  match title with
  | VNone => true
  | VStr t => negb (has_nl t)
  | _ => false
  end.

(** The lines of the returned string, from the lines of the table. *)
Definition padded_lines (self : Handler) (frame : list string) : list string :=
  if is_True (padding (_meta self)) then EmptyString :: frame ++ [EmptyString] else frame.

(** The glyphs are one character each and no line break. *)
Definition glyph_ok (g : string) : bool :=
  Nat.eqb (char_count g) 1 && negb (has_nl g).

Definition glyphs_ok (g : TableRenderer.glyphs) : bool :=
  glyph_ok (TableRenderer.top_left g) && glyph_ok (TableRenderer.top_mid g)
  && glyph_ok (TableRenderer.top_right g) && glyph_ok (TableRenderer.sep_left g)
  && glyph_ok (TableRenderer.sep_mid g) && glyph_ok (TableRenderer.sep_right g)
  && glyph_ok (TableRenderer.bottom_left g) && glyph_ok (TableRenderer.bottom_mid g)
  && glyph_ok (TableRenderer.bottom_right g) && glyph_ok (TableRenderer.horizontal g)
  && glyph_ok (TableRenderer.vertical g).

(** Every cell of the row fits the width of its column. *)
Definition fits (ws : list nat) (r : list string) : Prop :=
  Forall2 (fun w c => TableRenderer.cell_width c <= w) ws r.

(** The spec's example: NAME and AGE over Ann, 30 and Bo, 5.  The list 1
    holds the rows 3 and 4, the list 2 is the header row, the list 5 is
    empty. *)
Definition h_people : heap :=
  <[1%positive := [VList 3%positive; VList 4%positive]]>
    (<[2%positive := [VStr "NAME"; VStr "AGE"]]>
       (<[3%positive := [VStr "Ann"; VStr "30"]]>
          (<[4%positive := [VStr "Bo"; VStr "5"]]> ∅))).


(** ** Callers *)

(** One call of [render]: the handler it is called on and its arguments. *)
Record call : Type :=
  { c_self : Handler;
    c_data : value;
    c_headers : value;
    c_title : value;
    c_kw : list (string * value) }.

(** A caller that makes the calls one after the other, going on after a call
    that raised: the heap that the calls leave. *)
Fixpoint render_all (lib : TableLib) (calls : list call) (h : heap) : heap :=
  match calls with
  | [] => h
  | c :: cs =>
      render_all lib cs
        (snd (render lib (c_self c) (c_data c) (c_headers c) (c_title c) (c_kw c) h))
  end.

(** * Properties *)

(** ** How render runs *)

(** [render] in one equation: the exception of line 181 or, on the heap that
    lines 180-181 leave, the outcome of lines 183-194. *)
Lemma render_run lib self data headers title kw h :
  render lib self data headers title kw h =
  if insertion_ok h data headers then
    (match _config self "style" (style (_meta self)) with
     | Raise e => Raise e
     | Ok sty =>
         match style_map_getitem sty with
         | Raise e => Raise e
         | Ok cls =>
             result_map (wrap self)
               (table lib cls (heap_after h data headers) data title)
         end
     end, heap_after h data headers)
  else (Raise (AttributeError "insert"), h).
Proof.
  unfold render, insertion_ok, heap_after, inserts, bind, reads, lift, ret, wrap.
  destruct (truthy h headers && isinstance_list headers) eqn:G; cbn.
  - destruct data; cbn; try reflexivity.
    destruct (_config self "style" (style (_meta self))) as [sty|e]; [|reflexivity].
    destruct (style_map_getitem sty) as [cls|e]; [|reflexivity].
    destruct (table lib cls _ (VList l) title); reflexivity.
  - destruct (_config self "style" (style (_meta self))) as [sty|e]; [|reflexivity].
    destruct (style_map_getitem sty) as [cls|e]; [|reflexivity].
    destruct (table lib cls h data title); reflexivity.
Qed.

Lemma heap_after_not_inserted h data headers :
  inserts h headers = false -> heap_after h data headers = h.
Proof. unfold heap_after. intros ->. reflexivity. Qed.

Lemma heap_after_inserted h l headers :
  inserts h headers = true ->
  heap_after h (VList l) headers = <[l := headers :: h !!! l]> h.
Proof. unfold heap_after. intros ->. reflexivity. Qed.

Lemma heap_after_other h data headers l :
  data <> VList l -> heap_after h data headers !!! l = h !!! l.
Proof.
  unfold heap_after. intros Hne.
  destruct (inserts h headers); [|reflexivity].
  destruct data as [| | | | |l']; try reflexivity.
  apply lookup_total_insert_ne. congruence.
Qed.

(** ** The style dictionary *)

Lemma style_map_lookup_other (s : string) :
  s <> "ascii" -> s <> "single" -> s <> "double" -> style_map !! s = None.
Proof.
  intros H1 H2 H3. unfold style_map.
  rewrite !lookup_insert_ne by congruence. apply lookup_empty.
Qed.

Lemma style_map_getitem_recognized sty :
  recognized sty = true -> exists cls, style_map_getitem sty = Ok cls.
Proof.
  destruct sty as [| | |s| |]; cbn; try discriminate.
  intros H. apply orb_prop in H as [H|H]; [apply orb_prop in H as [H|H]|];
    apply String.eqb_eq in H; subst s; eexists; reflexivity.
Qed.

Lemma style_map_getitem_unrecognized sty :
  recognized sty = false ->
  style_map_getitem sty =
  Raise (if hashable sty then KeyError sty else TypeError "unhashable type").
Proof.
  intros H. unfold style_map_getitem.
  destruct (hashable sty) eqn:Hh; [|reflexivity].
  destruct sty as [| | |s| |]; try reflexivity.
  cbn in H. apply orb_false_elim in H as [H H3]. apply orb_false_elim in H as [H1 H2].
  apply String.eqb_neq in H1, H2, H3.
  rewrite style_map_lookup_other by assumption. reflexivity.
Qed.

Lemma style_map_getitem_Ok_recognized sty cls :
  style_map_getitem sty = Ok cls -> recognized sty = true.
Proof.
  intros H. destruct (recognized sty) eqn:R; [reflexivity|].
  rewrite style_map_getitem_unrecognized in H by assumption. discriminate.
Qed.

(** ** Lines *)

Lemma split_nl_nonempty s : split_nl s <> [].
Proof.
  destruct s as [|c r]; cbn; [discriminate|].
  destruct (is_nl c); [discriminate|]. destruct (split_nl r); discriminate.
Qed.

(** Splitting distributes over a line break. *)
Lemma split_nl_app a b :
  split_nl (a +:+ nl +:+ b) = split_nl a ++ split_nl b.
Proof.
  induction a as [|c r IH].
  - reflexivity.
  - change (String c r +:+ nl +:+ b) with (String c (r +:+ nl +:+ b)).
    cbn [split_nl]. rewrite IH.
    destruct (is_nl c); [reflexivity|].
    destruct (split_nl r) as [|x xs] eqn:E.
    + exfalso. exact (split_nl_nonempty r E).
    + reflexivity.
Qed.

Lemma string_app_empty (s : string) : s +:+ EmptyString = s.
Proof.
  induction s as [|c r IH]; [reflexivity|].
  change (String c (r +:+ EmptyString) = String c r). f_equal. exact IH.
Qed.

Lemma split_nl_snoc t : split_nl (t +:+ nl) = split_nl t ++ [EmptyString].
Proof.
  rewrite <- (string_app_empty nl) at 1.
  rewrite split_nl_app. reflexivity.
Qed.

Lemma lines_of_snoc_empty (ls : list string) :
  match last (ls ++ [EmptyString]) with
  | Some EmptyString => removelast (ls ++ [EmptyString])
  | _ => ls ++ [EmptyString]
  end = ls.
Proof. rewrite last_snoc. apply removelast_last. Qed.

(** The lines of [t + '\n'] are the pieces of [t]. *)
Lemma lines_of_unpadded t : lines_of (t +:+ nl) = split_nl t.
Proof.
  unfold lines_of. rewrite split_nl_snoc. apply lines_of_snoc_empty.
Qed.

(** The lines of ['\n' + t + '\n' + '\n']: an empty line, the pieces of [t],
    an empty line. *)
Lemma lines_of_padded t :
  lines_of (nl +:+ (t +:+ nl) +:+ nl) = EmptyString :: split_nl t ++ [EmptyString].
Proof.
  unfold lines_of.
  assert (E : split_nl (nl +:+ (t +:+ nl) +:+ nl)
              = (EmptyString :: split_nl t ++ [EmptyString]) ++ [EmptyString]).
  { change (nl +:+ (t +:+ nl) +:+ nl) with (EmptyString +:+ nl +:+ ((t +:+ nl) +:+ nl)).
    rewrite split_nl_app. rewrite split_nl_snoc, split_nl_snoc. cbn.
    rewrite <- app_assoc. reflexivity. }
  rewrite E. apply lines_of_snoc_empty.
Qed.

(** ** The keyword arguments *)

(** C10: two calls of render that agree on data, headers, title, the handler
    and the heap return the same string (and leave the same heap), whatever
    their extra keyword arguments are. *)
Theorem render_ignores_kw lib self data headers title kw kw' h :
  render lib self data headers title kw h = render lib self data headers title kw' h.
Proof. rewrite (render_run _ _ _ _ _ kw), (render_run _ _ _ _ _ kw'). reflexivity. Qed.

(** ** The configuration wrapper *)

(** C8: [_config key default] is [app.config.get(config_section, key)] for
    every key and every default, so the argument [default=self._meta.style]
    of line 183 plays no part: render does the same whatever [Meta.style] is. *)
Theorem config_default_is_ignored :
  (forall self key default,
     _config self key default = config_get (app self) (config_section (_meta self)) key) /\
  (forall self key default default',
     _config self key default = _config self key default') /\
  (forall lib self data headers title kw h s s',
     render lib (set_style s self) data headers title kw h =
     render lib (set_style s' self) data headers title kw h).
Proof.
  split; [reflexivity|]. split; [reflexivity|].
  intros. rewrite !render_run. reflexivity.
Qed.

(** ** Headers that are not inserted *)

(** C9: when headers is empty (falsy) or is not a list instance, render
    leaves data as it is and does what the call without headers does: the
    headers are not rendered and line 181 raises nothing. *)
Theorem ignored_headers lib self data headers title kw h :
  truthy h headers = false \/ isinstance_list headers = false ->
  snd (render lib self data headers title kw h) = h /\
  render lib self data headers title kw h = render lib self data VNone title kw h /\
  fst (render lib self data headers title kw h) =
    match _config self "style" (style (_meta self)) with
    | Raise e => Raise e
    | Ok sty =>
        match style_map_getitem sty with
        | Raise e => Raise e
        | Ok cls => result_map (wrap self) (table lib cls h data title)
        end
    end.
Proof.
  intros Hg.
  assert (G : inserts h headers = false).
  { unfold inserts. destruct Hg as [-> | ->]; [reflexivity | apply andb_false_r]. }
  rewrite !render_run. unfold insertion_ok. rewrite G. cbn.
  rewrite heap_after_not_inserted by assumption.
  repeat split; reflexivity.
Qed.

(** A tuple of header names, and the empty list 4, on the table [[X]]. *)
Lemma ignored_headers_witness :
  (snd (render tables_X (handler_with_style (VStr "ascii")) (VList 1%positive)
          (VTuple [VStr "NAME"]) VNone [] h_X) = h_X) /\
  (snd (render tables_X (handler_with_style (VStr "ascii")) (VList 1%positive)
          (VList 4%positive) VNone [] h_X) = h_X).
Proof.
  split.
  - apply (ignored_headers tables_X (handler_with_style (VStr "ascii"))
             (VList 1%positive) (VTuple [VStr "NAME"]) VNone [] h_X).
    right. reflexivity.
  - apply (ignored_headers tables_X (handler_with_style (VStr "ascii"))
             (VList 1%positive) (VList 4%positive) VNone [] h_X).
    left. reflexivity.
Defined.

(** ** Padding *)

(** Whatever render ends with, with [Meta.padding] being [True] it ends with
    the same, a returned string being wrapped in two line breaks. *)
Lemma padding_relates_outcomes lib self data headers title kw h p :
  is_True p = false ->
  render lib (set_padding (VBool true) self) data headers title kw h =
    (result_map (fun s => nl +:+ s +:+ nl)
       (fst (render lib (set_padding p self) data headers title kw h)),
     snd (render lib (set_padding p self) data headers title kw h)).
Proof.
  intros Hp. rewrite !render_run.
  change (_config (set_padding (VBool true) self) "style"
            (style (_meta (set_padding (VBool true) self))))
    with (_config self "style" (style (_meta self))).
  change (_config (set_padding p self) "style" (style (_meta (set_padding p self))))
    with (_config self "style" (style (_meta self))).
  destruct (insertion_ok h data headers); cbn [fst snd]; [|reflexivity].
  destruct (_config self "style" (style (_meta self))) as [sty|e]; [|reflexivity].
  destruct (style_map_getitem sty) as [cls|e]; [|reflexivity].
  destruct (table lib cls (heap_after h data headers) data title) as [t|e];
    [|reflexivity].
  unfold wrap. cbn. rewrite Hp. reflexivity.
Qed.

(** C3: when the selected table class returns the text [t], render returns,
    with [Meta.padding] being [True], a line break, the string it returns
    without padding, and a line break; the string returned without padding is
    [t] followed by one line break and no blank line.  So the lines of the
    unpadded string are the lines of the table, and the padded string has
    exactly one empty line before them and one after. *)
Theorem padding_wraps_in_blank_lines lib self data headers title kw h p sty cls t :
  is_True p = false ->
  insertion_ok h data headers = true ->
  _config self "style" (style (_meta self)) = Ok sty ->
  style_map_getitem sty = Ok cls ->
  table lib cls (heap_after h data headers) data title = Ok t ->
  fst (render lib (set_padding p self) data headers title kw h) = Ok (t +:+ nl) /\
  fst (render lib (set_padding (VBool true) self) data headers title kw h)
    = Ok (nl +:+ (t +:+ nl) +:+ nl) /\
  lines_of (t +:+ nl) = split_nl t /\
  lines_of (nl +:+ (t +:+ nl) +:+ nl)
    = [EmptyString] ++ lines_of (t +:+ nl) ++ [EmptyString] /\
  snd (render lib (set_padding (VBool true) self) data headers title kw h)
    = snd (render lib (set_padding p self) data headers title kw h).
Proof.
  intros Hp Hi Hc Hs Ht.
  assert (E : fst (render lib (set_padding p self) data headers title kw h)
              = Ok (t +:+ nl)).
  { rewrite render_run, Hi.
    change (_config (set_padding p self) "style" (style (_meta (set_padding p self))))
      with (_config self "style" (style (_meta self))).
    rewrite Hc, Hs. cbn [fst]. rewrite Ht. unfold wrap. cbn. rewrite Hp. reflexivity. }
  rewrite (padding_relates_outcomes lib self data headers title kw h p Hp).
  cbn [fst snd]. rewrite E. cbn [result_map].
  rewrite lines_of_unpadded, lines_of_padded.
  repeat split; reflexivity.
Qed.

(** The table [[X]] drawn by the core, with padding [False] and [True]. *)
Lemma padding_wraps_in_blank_lines_witness :
  fst (render core_tables (set_padding (VBool false) (handler_with_style (VStr "ascii")))
         (VList 1%positive) VNone VNone [] h_X)
    = Ok (frame_X +:+ nl) /\
  fst (render core_tables (set_padding (VBool true) (handler_with_style (VStr "ascii")))
         (VList 1%positive) VNone VNone [] h_X)
    = Ok (nl +:+ (frame_X +:+ nl) +:+ nl) /\
  lines_of (frame_X +:+ nl) = split_nl frame_X /\
  lines_of (nl +:+ (frame_X +:+ nl) +:+ nl)
    = [EmptyString] ++ lines_of (frame_X +:+ nl) ++ [EmptyString] /\
  snd (render core_tables (set_padding (VBool true) (handler_with_style (VStr "ascii")))
         (VList 1%positive) VNone VNone [] h_X)
    = snd (render core_tables (set_padding (VBool false) (handler_with_style (VStr "ascii")))
             (VList 1%positive) VNone VNone [] h_X).
Proof.
  apply (padding_wraps_in_blank_lines core_tables (handler_with_style (VStr "ascii"))
           (VList 1%positive) VNone VNone [] h_X (VBool false) (VStr "ascii") AsciiTable
           frame_X); reflexivity.
Defined.

(** ** The style *)

(** On a heap where lines 180-181 end normally, a configured style that
    [style_map] knows selects the class whose text is returned. *)
Lemma render_selected_class lib self data headers title kw h sty cls :
  insertion_ok h data headers = true ->
  _config self "style" (style (_meta self)) = Ok sty ->
  style_map_getitem sty = Ok cls ->
  fst (render lib self data headers title kw h) =
  result_map (wrap self) (table lib cls (heap_after h data headers) data title).
Proof.
  intros Hi Hc Hs. rewrite render_run, Hi, Hc, Hs. reflexivity.
Qed.

(** The handler as the class declares it, in an application whose handler
    section has the keys of [user] configured. *)
Lemma configured_style_lookup (user : gmap string value) default :
  _config {| app := configured user TerminaltablesMeta; _meta := TerminaltablesMeta |}
    "style" default
  = match user !! "style" with
    | Some v => Ok v
    | None => Ok (VStr "ascii")
    end.
Proof.
  unfold _config, configured. cbn. destruct (user !! "style"); reflexivity.
Qed.

(** C5: the declared default of the style is "ascii" (both [Meta.style] and
    the entry of [Meta.config_defaults]).  When the handler section
    configures no style render returns the text of [AsciiTable], and when it
    configures "ascii", "single" or "double" render returns the text of
    [AsciiTable], [SingleTable] or [DoubleTable] respectively. *)
Theorem style_selection lib (user : gmap string value) data headers title kw h :
  insertion_ok h data headers = true ->
  (style TerminaltablesMeta = VStr "ascii" /\
   config_defaults TerminaltablesMeta !! "style" = Some (VStr "ascii")) /\
  (user !! "style" = None ->
     fst (render lib
            {| app := configured user TerminaltablesMeta; _meta := TerminaltablesMeta |}
            data headers title kw h)
     = result_map (wrap {| app := configured user TerminaltablesMeta;
                           _meta := TerminaltablesMeta |})
         (table lib AsciiTable (heap_after h data headers) data title)) /\
  (forall name cls,
     user !! "style" = Some (VStr name) ->
     In (name, cls) [("ascii", AsciiTable); ("single", SingleTable); ("double", DoubleTable)] ->
     fst (render lib
            {| app := configured user TerminaltablesMeta; _meta := TerminaltablesMeta |}
            data headers title kw h)
     = result_map (wrap {| app := configured user TerminaltablesMeta;
                           _meta := TerminaltablesMeta |})
         (table lib cls (heap_after h data headers) data title)).
Proof.
  intros Hi. split; [split; reflexivity|]. split.
  - intros Hu. apply render_selected_class with (sty := VStr "ascii");
      [assumption| |reflexivity].
    rewrite configured_style_lookup, Hu. reflexivity.
  - intros name cls Hu Hin. apply render_selected_class with (sty := VStr name);
      [assumption| |].
    + rewrite configured_style_lookup, Hu. reflexivity.
    + cbn in Hin. destruct Hin as [E|[E|[E|[]]]]; injection E as <- <-; reflexivity.
Qed.

(** The table [[X]] drawn by the core with no style configured, and with
    "single" and "double" configured. *)
Lemma style_selection_witness :
  fst (render core_tables
         {| app := configured ∅ TerminaltablesMeta; _meta := TerminaltablesMeta |}
         (VList 1%positive) VNone VNone [] h_X)
    = Ok (nl +:+ ("+---+" +:+ nl +:+ "| X |" +:+ nl +:+ "+---+" +:+ nl) +:+ nl) /\
  fst (render core_tables
         {| app := configured (<["style" := VStr "single"]> ∅) TerminaltablesMeta;
            _meta := TerminaltablesMeta |}
         (VList 1%positive) VNone VNone [] h_X)
    = Ok (nl +:+ ("┌───┐" +:+ nl +:+ "│ X │" +:+ nl +:+ "└───┘" +:+ nl) +:+ nl) /\
  fst (render core_tables
         {| app := configured (<["style" := VStr "double"]> ∅) TerminaltablesMeta;
            _meta := TerminaltablesMeta |}
         (VList 1%positive) VNone VNone [] h_X)
    = Ok (nl +:+ ("╔═══╗" +:+ nl +:+ "║ X ║" +:+ nl +:+ "╚═══╝" +:+ nl) +:+ nl).
Proof.
  split; [|split].
  - destruct (style_selection core_tables ∅ (VList 1%positive) VNone VNone [] h_X eq_refl)
      as (_ & H & _).
    rewrite H by reflexivity. reflexivity.
  - destruct (style_selection core_tables (<["style" := VStr "single"]> ∅)
                (VList 1%positive) VNone VNone [] h_X eq_refl) as (_ & _ & H).
    rewrite (H "single" SingleTable) by (try reflexivity; cbn; tauto). reflexivity.
  - destruct (style_selection core_tables (<["style" := VStr "double"]> ∅)
                (VList 1%positive) VNone VNone [] h_X eq_refl) as (_ & _ & H).
    rewrite (H "double" DoubleTable) by (try reflexivity; cbn; tauto). reflexivity.
Defined.

(** ** The effect of render on the caller's lists *)

(** Whether it returns or raises, render leaves the heap of lines 180-181. *)
Lemma render_heap lib self data headers title kw h :
  snd (render lib self data headers title kw h) = heap_after h data headers.
Proof.
  rewrite render_run. unfold insertion_ok, heap_after.
  destruct (inserts h headers); [|reflexivity].
  destruct data; reflexivity.
Qed.

Lemma inserts_frame h l x (lh : loc) :
  l <> lh -> inserts (<[l := x]> h) (VList lh) = inserts h (VList lh).
Proof.
  intros Hne. unfold inserts, truthy.
  rewrite lookup_total_insert_ne by assumption. reflexivity.
Qed.

(** C1, the counterexample: on the contacts table the call with the header
    list 2 changes the caller's data list 1 from one row to two, and a second
    call with the same arguments makes it three rows, whatever the table
    library and the handler are. *)
Lemma render_inserts_headers_into_data :
  h_contacts !!! 1%positive = [VList 3%positive] /\
  (forall lib self title kw,
     snd (render lib self (VList 1%positive) (VList 2%positive) title kw h_contacts)
       !!! 1%positive
     = [VList 2%positive; VList 3%positive]) /\
  (forall lib self title kw,
     snd (render lib self (VList 1%positive) (VList 2%positive) title kw
            (snd (render lib self (VList 1%positive) (VList 2%positive) title kw
                    h_contacts)))
       !!! 1%positive
     = [VList 2%positive; VList 2%positive; VList 3%positive]).
Proof.
  split; [reflexivity|]. split; intros; rewrite !render_heap; reflexivity.
Qed.

(** C1, as amended: a call that inserts no headers leaves every list as it
    was, and calling again then returns the same outcome; a call with a
    non-empty headers list changes the caller's data list, and only it, by
    putting headers at index 0 (headers itself is untouched when it is another
    object); a second such call finds the header row already there and puts
    it in again. *)
Theorem render_only_inserts_headers lib self data headers title kw h :
  (inserts h headers = false ->
     snd (render lib self data headers title kw h) = h /\
     render lib self data headers title kw (snd (render lib self data headers title kw h))
     = render lib self data headers title kw h) /\
  (forall l, data = VList l -> inserts h headers = true ->
     snd (render lib self data headers title kw h) = <[l := headers :: h !!! l]> h) /\
  (forall l, data <> VList l ->
     snd (render lib self data headers title kw h) !!! l = h !!! l) /\
  (forall l lh, data = VList l -> headers = VList lh -> l <> lh ->
     inserts h headers = true ->
     snd (render lib self data headers title kw
            (snd (render lib self data headers title kw h))) !!! l
     = headers :: headers :: h !!! l).
Proof.
  split; [|split; [|split]].
  - intros G. rewrite render_heap, heap_after_not_inserted by assumption.
    split; reflexivity.
  - intros l -> G. rewrite render_heap. apply heap_after_inserted. assumption.
  - intros l Hne. rewrite render_heap. apply heap_after_other. assumption.
  - intros l lh -> -> Hne G. rewrite !render_heap.
    rewrite (heap_after_inserted h l (VList lh) G).
    rewrite heap_after_inserted by (rewrite inserts_frame; assumption).
    rewrite !lookup_total_insert_eq. reflexivity.
Qed.

(** ** A style that style_map does not know *)

(** C2, the counterexample: with the style "fancy" configured, render on the
    table [[X]] ends with the [KeyError] of the dictionary lookup of line 184,
    which is not a ConfigurationError. *)
Lemma unknown_style_raises_KeyError :
  recognized (VStr "fancy") = false /\
  (forall lib title kw,
     fst (render lib (handler_with_style (VStr "fancy")) (VList 1%positive) VNone title kw h_X)
     = Raise (KeyError (VStr "fancy"))) /\
  exn_class (KeyError (VStr "fancy")) <> "ConfigurationError".
Proof.
  split; [reflexivity|]. split; [|discriminate].
  intros. rewrite render_run. reflexivity.
Qed.

(** C2, as amended: for every configured style other than "ascii", "single"
    and "double", render returns no string and substitutes no default style:
    it raises the [KeyError] of line 184 carrying the configured value (a
    [TypeError] when that value is unhashable), unless line 181 has already
    raised its [AttributeError]. *)
Theorem unrecognized_style_raises lib self data headers title kw h sty :
  _config self "style" (style (_meta self)) = Ok sty ->
  recognized sty = false ->
  (forall s, fst (render lib self data headers title kw h) <> Ok s) /\
  (insertion_ok h data headers = true ->
     fst (render lib self data headers title kw h)
     = Raise (if hashable sty then KeyError sty else TypeError "unhashable type")) /\
  (insertion_ok h data headers = false ->
     fst (render lib self data headers title kw h) = Raise (AttributeError "insert")) /\
  (forall name, sty = VStr name -> insertion_ok h data headers = true ->
     fst (render lib self data headers title kw h) = Raise (KeyError (VStr name))).
Proof.
  intros Hc Hr. rewrite render_run, Hc, style_map_getitem_unrecognized by assumption.
  destruct (insertion_ok h data headers); cbn [fst].
  - repeat split; try discriminate.
    intros name -> _. reflexivity.
  - repeat split; discriminate.
Qed.

(** The style "fancy" on the table [[X]]. *)
Lemma unrecognized_style_raises_witness :
  fst (render tables_X (handler_with_style (VStr "fancy")) (VList 1%positive)
         VNone VNone [] h_X)
  = Raise (KeyError (VStr "fancy")).
Proof.
  destruct (unrecognized_style_raises tables_X (handler_with_style (VStr "fancy"))
              (VList 1%positive) VNone VNone [] h_X (VStr "fancy"))
    as (_ & _ & _ & H); [reflexivity | reflexivity |].
  apply H; reflexivity.
Defined.

(** ** The header row *)

Lemma inserts_nonempty_list h (lh : loc) : h !!! lh <> [] -> inserts h (VList lh) = true.
Proof.
  intros Hne. unfold inserts, truthy. destruct (h !!! lh); [congruence|reflexivity].
Qed.

(** A non-empty headers list becomes row 0 of a data list, and the call does
    what the call without headers does on the rows that already start with
    the header row: the table class is given the rows and the title and
    nothing else. *)
Lemma headers_list_is_leading_row lib self (l lh : loc) title kw h :
  h !!! lh <> [] ->
  rows_of (snd (render lib self (VList l) (VList lh) title kw h)) (VList l)
    = VList lh :: rows_of h (VList l) /\
  render lib self (VList l) (VList lh) title kw h
    = render lib self (VList l) VNone title kw (<[l := VList lh :: h !!! l]> h) /\
  fst (render lib self (VList l) (VList lh) title kw h)
    = match _config self "style" (style (_meta self)) with
      | Raise e => Raise e
      | Ok sty =>
          match style_map_getitem sty with
          | Raise e => Raise e
          | Ok cls =>
              result_map (wrap self)
                (table lib cls (<[l := VList lh :: h !!! l]> h) (VList l) title)
          end
      end.
Proof.
  intros Hne. pose proof (inserts_nonempty_list h lh Hne) as G.
  rewrite render_heap, !render_run.
  rewrite (heap_after_inserted h l (VList lh) G).
  unfold insertion_ok. rewrite G. cbn [negb orb isinstance_list fst rows_of].
  rewrite lookup_total_insert_eq.
  rewrite heap_after_not_inserted by reflexivity.
  repeat split; reflexivity.
Qed.

(** ** Rows of differing cell counts *)



(** ** The lines of the output *)

Lemma same_width_padded (ls : list string) :
  same_width (EmptyString :: ls ++ [EmptyString])
  = forallb (fun x => Nat.eqb (char_count x) 0) ls.
Proof.
  cbn. rewrite forallb_app. cbn. rewrite andb_true_r. reflexivity.
Qed.

(** Whenever render returns a string, its lines are the lines of the text of
    the selected table class, and with padding one empty line before them and
    one after. *)
Lemma output_lines_are_table_lines lib self data headers title kw h s :
  fst (render lib self data headers title kw h) = Ok s ->
  exists sty cls t,
    _config self "style" (style (_meta self)) = Ok sty /\
    style_map_getitem sty = Ok cls /\
    table lib cls (heap_after h data headers) data title = Ok t /\
    lines_of s
    = (if is_True (padding (_meta self))
       then EmptyString :: split_nl t ++ [EmptyString]
       else split_nl t) /\
    same_width (lines_of s)
    = (if is_True (padding (_meta self))
       then forallb (fun x => Nat.eqb (char_count x) 0) (split_nl t)
       else same_width (split_nl t)).
Proof.
  rewrite render_run.
  destruct (insertion_ok h data headers); cbn [fst]; [|discriminate].
  destruct (_config self "style" (style (_meta self))) as [sty|e] eqn:C; [|discriminate].
  destruct (style_map_getitem sty) as [cls|e] eqn:S; [|discriminate].
  destruct (table lib cls (heap_after h data headers) data title) as [t|e] eqn:T;
    cbn; [|discriminate].
  intros [= <-]. exists sty, cls, t.
  split; [reflexivity|]. split; [exact S|]. split; [exact T|].
  unfold wrap. cbn. destruct (is_True (padding (_meta self))).
  - rewrite lines_of_padded. split; [reflexivity | apply same_width_padded].
  - rewrite lines_of_unpadded. split; reflexivity.
Qed.

(** * Further properties of render *)

(** ** Exceptions and the inserted header row *)

(** X1: the insertion of line 181 is not undone when a later line raises.
    With a non-empty headers list, a data list and a configured style that
    [style_map] does not know, render raises the [KeyError] of line 184 and
    the caller's data nevertheless starts with the header row. *)
Theorem failed_render_keeps_header_row lib self (l lh : loc) title kw h sty :
  h !!! lh <> [] ->
  _config self "style" (style (_meta self)) = Ok sty ->
  recognized sty = false ->
  fst (render lib self (VList l) (VList lh) title kw h)
    = Raise (if hashable sty then KeyError sty else TypeError "unhashable type") /\
  snd (render lib self (VList l) (VList lh) title kw h) !!! l = VList lh :: h !!! l.
Proof.
  intros Hne Hc Hr. pose proof (inserts_nonempty_list h lh Hne) as G.
  split.
  - rewrite render_run, Hc, style_map_getitem_unrecognized by assumption.
    unfold insertion_ok. rewrite G. reflexivity.
  - rewrite render_heap, (heap_after_inserted h l (VList lh) G).
    apply lookup_total_insert_eq.
Qed.

(** The style "fancy" and the header list 2 on the contacts table. *)
Lemma failed_render_keeps_header_row_witness :
  fst (render tables_X (handler_with_style (VStr "fancy")) (VList 1%positive)
         (VList 2%positive) VNone [] h_contacts)
    = Raise (KeyError (VStr "fancy")) /\
  snd (render tables_X (handler_with_style (VStr "fancy")) (VList 1%positive)
         (VList 2%positive) VNone [] h_contacts) !!! 1%positive
    = VList 2%positive :: h_contacts !!! 1%positive.
Proof.
  apply (failed_render_keeps_header_row tables_X (handler_with_style (VStr "fancy"))
           1%positive 2%positive VNone [] h_contacts (VStr "fancy")).
  - discriminate.
  - reflexivity.
  - reflexivity.
Defined.

(** X2: data that is [None], a bool, an int, a str or a tuple (a tuple of
    rows, say) has no [insert] method: with a non-empty headers list, line 181
    raises [AttributeError] before the configuration is read or a table is
    built.  The outcome is the same for every handler and table library, and
    the heap is unchanged. *)
Theorem headers_need_a_data_list lib self data headers title kw h :
  data = VNone \/ (exists b, data = VBool b) \/ (exists n, data = VInt n) \/
  (exists s, data = VStr s) \/ (exists vs, data = VTuple vs) ->
  inserts h headers = true ->
  render lib self data headers title kw h = (Raise (AttributeError "insert"), h).
Proof.
  intros Hd G. rewrite render_run. unfold insertion_ok. rewrite G.
  destruct Hd as [-> | [[b ->] | [[n ->] | [[s ->] | [vs ->]]]]]; reflexivity.
Qed.

(** The rows as a tuple, with the header list 2 of the contacts table. *)
Lemma headers_need_a_data_list_witness :
  render tables_X (handler_with_style (VStr "ascii")) (VTuple [VList 3%positive])
    (VList 2%positive) VNone [] h_contacts
  = (Raise (AttributeError "insert"), h_contacts).
Proof.
  apply (headers_need_a_data_list tables_X (handler_with_style (VStr "ascii"))
           (VTuple [VList 3%positive]) (VList 2%positive) VNone [] h_contacts).
  - right. right. right. right. exists [VList 3%positive]. reflexivity.
  - reflexivity.
Defined.

(** X3: an exception of render's own lines 181-184 does not depend on the
    table library: when line 181 raises, the configuration raises, or the
    configured style is not in [style_map], the outcome (exception and heap) is
    the same for any two table libraries. *)
Theorem own_exceptions_ignore_the_library lib lib' self data headers title kw h :
  insertion_ok h data headers = false \/
  (exists e, _config self "style" (style (_meta self)) = Raise e) \/
  (exists sty, _config self "style" (style (_meta self)) = Ok sty /\ recognized sty = false) ->
  render lib self data headers title kw h = render lib' self data headers title kw h /\
  exists e, fst (render lib self data headers title kw h) = Raise e.
Proof.
  intros H. rewrite !render_run.
  destruct (insertion_ok h data headers); [|split; [reflexivity|eexists; reflexivity]].
  destruct H as [H|[[e H]|(sty & H & Hr)]]; [discriminate| |]; rewrite H.
  - split; [reflexivity|eexists; reflexivity].
  - rewrite style_map_getitem_unrecognized by assumption.
    split; [reflexivity|eexists; reflexivity].
Qed.

(** The style "fancy" on the table [[X]], with two different libraries. *)
Lemma own_exceptions_ignore_the_library_witness :
  render tables_X (handler_with_style (VStr "fancy")) (VList 1%positive) VNone VNone [] h_X
  = render {| table := fun _ _ _ _ => Raise (Foreign "ValueError" "no table") |}
      (handler_with_style (VStr "fancy")) (VList 1%positive) VNone VNone [] h_X.
Proof.
  apply (own_exceptions_ignore_the_library tables_X
           {| table := fun _ _ _ _ => Raise (Foreign "ValueError" "no table") |}
           (handler_with_style (VStr "fancy")) (VList 1%positive) VNone VNone [] h_X).
  right. right. exists (VStr "fancy"). split; reflexivity.
Defined.

(** ** Padding *)

Lemma is_True_false p : p <> VBool true -> is_True p = false.
Proof. destruct p as [|[|]| | | |]; try reflexivity. congruence. Qed.

(** X4: line 191 compares [Meta.padding] with [True] by identity, so every
    other value, a truthy one like 1 or a non-empty string included, switches
    padding off: render then does what it does with [padding = False]. *)
Theorem only_True_enables_padding lib self data headers title kw h p :
  p <> VBool true ->
  render lib (set_padding p self) data headers title kw h
  = render lib (set_padding (VBool false) self) data headers title kw h.
Proof.
  intros Hp. rewrite !render_run. unfold wrap. cbn [_meta set_padding padding].
  rewrite (is_True_false p Hp). reflexivity.
Qed.

(** The truthy padding value 1 on the table [[X]]. *)
Lemma only_True_enables_padding_witness :
  truthy h_X (VInt 1) = true /\
  render tables_X (set_padding (VInt 1) (handler_with_style (VStr "ascii")))
    (VList 1%positive) VNone VNone [] h_X
  = render tables_X (set_padding (VBool false) (handler_with_style (VStr "ascii")))
      (VList 1%positive) VNone VNone [] h_X.
Proof.
  split; [reflexivity|].
  apply (only_True_enables_padding tables_X (handler_with_style (VStr "ascii"))
           (VList 1%positive) VNone VNone [] h_X (VInt 1)).
  discriminate.
Defined.

(** ** The length of the returned string *)




(** ** Shared list objects *)

(** X6: the header row that render puts into data is the caller's headers
    list itself, not a copy: when the caller later inserts a cell into
    headers, row 0 of data is that same, changed list. *)
Theorem header_row_is_shared lib self (l lh : loc) title kw h x :
  l <> lh ->
  h !!! lh <> [] ->
  rows_of (snd (insert0 (VList lh) x
                  (snd (render lib self (VList l) (VList lh) title kw h))))
    (VList l)
    = VList lh :: rows_of h (VList l) /\
  snd (insert0 (VList lh) x (snd (render lib self (VList l) (VList lh) title kw h)))
    !!! lh
    = x :: h !!! lh.
Proof.
  intros Hne Hh. pose proof (inserts_nonempty_list h lh Hh) as G.
  rewrite render_heap, (heap_after_inserted h l (VList lh) G).
  cbn [insert0 snd rows_of].
  rewrite (lookup_total_insert_ne _ l lh) by assumption.
  rewrite lookup_total_insert_eq.
  rewrite lookup_total_insert_ne by congruence.
  rewrite lookup_total_insert_eq. split; reflexivity.
Qed.

(** The contacts table; the caller then puts the cell ID into the headers. *)
Lemma header_row_is_shared_witness :
  snd (insert0 (VList 2%positive) (VStr "ID")
         (snd (render tables_X (handler_with_style (VStr "ascii")) (VList 1%positive)
                 (VList 2%positive) VNone [] h_contacts)))
    !!! 2%positive
  = VStr "ID" :: h_contacts !!! 2%positive.
Proof.
  apply (header_row_is_shared tables_X (handler_with_style (VStr "ascii"))
           1%positive 2%positive VNone [] h_contacts (VStr "ID")).
  - discriminate.
  - discriminate.
Defined.

(** X7: when the same non-empty list is passed as data and as headers, render
    inserts the list into itself: data becomes its own first row, and the
    headers argument is changed as well. *)
Theorem data_as_its_own_headers lib self (l : loc) title kw h :
  h !!! l <> [] ->
  snd (render lib self (VList l) (VList l) title kw h) !!! l = VList l :: h !!! l /\
  hd VNone (rows_of (snd (render lib self (VList l) (VList l) title kw h)) (VList l))
    = VList l.
Proof.
  intros Hh. pose proof (inserts_nonempty_list h l Hh) as G.
  rewrite render_heap, (heap_after_inserted h l (VList l) G).
  cbn [rows_of]. rewrite lookup_total_insert_eq. split; reflexivity.
Qed.

(** The rows of the table [[X]] passed as headers too. *)
Lemma data_as_its_own_headers_witness :
  snd (render tables_X (handler_with_style (VStr "ascii")) (VList 1%positive)
         (VList 1%positive) VNone [] h_X) !!! 1%positive
  = VList 1%positive :: h_X !!! 1%positive.
Proof.
  apply (data_as_its_own_headers tables_X (handler_with_style (VStr "ascii"))
           1%positive VNone [] h_X).
  discriminate.
Defined.

(** ** Sequences of calls *)

(** X8: however many calls are made, with whatever arguments and outcomes, a
    list that is never passed as data keeps its contents.  So the empty list
    object that stands for an omitted [headers] stays empty, and a call that
    omits headers inserts nothing. *)
Theorem lists_not_passed_as_data_are_kept lib calls (ld : loc) h :
  Forall (fun c => c_data c <> VList ld) calls ->
  render_all lib calls h !!! ld = h !!! ld /\
  (h !!! ld = [] -> inserts (render_all lib calls h) (VList ld) = false).
Proof.
  intros HF.
  assert (K : render_all lib calls h !!! ld = h !!! ld).
  { revert h. induction HF as [|c cs Hc _ IH]; intros h; [reflexivity|].
    cbn [render_all]. rewrite IH, render_heap. apply heap_after_other. exact Hc. }
  split; [exact K|].
  intros E. unfold inserts, truthy. rewrite K, E. reflexivity.
Qed.

(** Two calls on the contacts table, the second one failing; the list 4 is
    the empty default. *)
Lemma lists_not_passed_as_data_are_kept_witness :
  inserts
    (render_all tables_X
       [ {| c_self := handler_with_style (VStr "ascii"); c_data := VList 1%positive;
            c_headers := VList 2%positive; c_title := VNone; c_kw := [] |};
         {| c_self := handler_with_style (VStr "fancy"); c_data := VList 1%positive;
            c_headers := VList 2%positive; c_title := VStr "Contacts"; c_kw := [] |} ]
       h_contacts)
    (VList 4%positive)
  = false.
Proof.
  apply (lists_not_passed_as_data_are_kept tables_X
           [ {| c_self := handler_with_style (VStr "ascii"); c_data := VList 1%positive;
                c_headers := VList 2%positive; c_title := VNone; c_kw := [] |};
             {| c_self := handler_with_style (VStr "fancy"); c_data := VList 1%positive;
                c_headers := VList 2%positive; c_title := VStr "Contacts"; c_kw := [] |} ]
           4%positive h_contacts).
  - repeat constructor; discriminate.
  - reflexivity.
Defined.

Lemma repeat_snoc_cons {A : Type} (x : A) n (r : list A) :
  repeat x n ++ x :: r = x :: repeat x n ++ r.
Proof. induction n as [|n IH]; [reflexivity|]. cbn. rewrite IH. reflexivity. Qed.

(** X9: a caller that renders the same data list with the same non-empty
    headers list n times finds n header rows in front of its data rows, the
    calls that raised included. *)
Theorem repeated_calls_pile_up_headers lib self (l lh : loc) title kw n h :
  l <> lh ->
  h !!! lh <> [] ->
  render_all lib
    (repeat {| c_self := self; c_data := VList l; c_headers := VList lh;
               c_title := title; c_kw := kw |} n) h !!! l
  = repeat (VList lh) n ++ h !!! l.
Proof.
  intros Hne. revert h. induction n as [|n IH]; intros h Hh; [reflexivity|].
  pose proof (inserts_nonempty_list h lh Hh) as G.
  cbn [repeat render_all c_self c_data c_headers c_title c_kw].
  rewrite render_heap, (heap_after_inserted h l (VList lh) G).
  rewrite IH by (rewrite lookup_total_insert_ne by assumption; exact Hh).
  rewrite lookup_total_insert_eq. apply repeat_snoc_cons.
Qed.

(** Three calls on the contacts table. *)
Lemma repeated_calls_pile_up_headers_witness :
  render_all tables_X
    (repeat {| c_self := handler_with_style (VStr "ascii"); c_data := VList 1%positive;
               c_headers := VList 2%positive; c_title := VNone; c_kw := [] |} 3)
    h_contacts !!! 1%positive
  = repeat (VList 2%positive) 3 ++ h_contacts !!! 1%positive.
Proof.
  apply (repeated_calls_pile_up_headers tables_X (handler_with_style (VStr "ascii"))
           1%positive 2%positive VNone [] 3 h_contacts).
  - discriminate.
  - discriminate.
Defined.


(** * The table-drawing core *)

(** ** Characters and line breaks of assembled strings *)

Lemma app_cons c (r b : string) : String c r +:+ b = String c (r +:+ b).
Proof. reflexivity. Qed.

Lemma char_count_app (a b : string) :
  char_count (a +:+ b) = char_count a + char_count b.
Proof.
  induction a as [|c r IH]; [reflexivity|].
  rewrite app_cons. cbn [char_count]. rewrite IH. lia.
Qed.

Lemma has_nl_cons c r : has_nl (String c r) = is_nl c || has_nl r.
Proof. reflexivity. Qed.

Lemma has_nl_app (a b : string) : has_nl (a +:+ b) = has_nl a || has_nl b.
Proof.
  induction a as [|c r IH]; [reflexivity|].
  rewrite app_cons, !has_nl_cons, IH. apply orb_assoc.
Qed.

Lemma split_nl_one_line s : has_nl s = false -> split_nl s = [s].
Proof.
  induction s as [|c r IH]; [reflexivity|].
  rewrite has_nl_cons. intros H. apply orb_false_elim in H as [Hc Hr].
  cbn [split_nl]. rewrite Hc, (IH Hr). reflexivity.
Qed.

Lemma split_nl_pieces s : Forall (fun x => has_nl x = false) (split_nl s).
Proof.
  induction s as [|c r IH]; cbn [split_nl].
  - constructor; [reflexivity|constructor].
  - destruct (is_nl c) eqn:Hc.
    + constructor; [reflexivity|exact IH].
    + destruct (split_nl r) as [|x xs].
      * constructor; [|constructor]. rewrite has_nl_cons, Hc. reflexivity.
      * inversion IH as [|? ? Hx Hxs]; subst. constructor; [|exact Hxs].
        rewrite has_nl_cons, Hc, Hx. reflexivity.
Qed.

Lemma char_count_repeat_str g n : char_count (repeat_str g n) = n * char_count g.
Proof.
  induction n as [|n IH]; [reflexivity|].
  cbn [repeat_str]. rewrite char_count_app, IH. lia.
Qed.

Lemma has_nl_repeat_str g n : has_nl g = false -> has_nl (repeat_str g n) = false.
Proof.
  intros Hg. induction n as [|n IH]; [reflexivity|].
  cbn [repeat_str]. rewrite has_nl_app, Hg, IH. reflexivity.
Qed.

Lemma char_count_join sep ps :
  char_count (join sep ps)
  = list_sum (map char_count ps) + (length ps - 1) * char_count sep.
Proof.
  induction ps as [|p rest IH]; [reflexivity|].
  destruct rest as [|q rest].
  - cbn. lia.
  - change (join sep (p :: q :: rest)) with (p +:+ sep +:+ join sep (q :: rest)).
    rewrite !char_count_app, IH. cbn [map length Nat.sub].
    change (list_sum (char_count p :: char_count q :: map char_count rest))
      with (char_count p + list_sum (char_count q :: map char_count rest)).
    rewrite !Nat.sub_0_r. cbn [Nat.mul]. lia.
Qed.

Lemma has_nl_join sep ps :
  has_nl sep = false -> Forall (fun p => has_nl p = false) ps ->
  has_nl (join sep ps) = false.
Proof.
  intros Hs HF. induction HF as [|p rest Hp _ IH]; [reflexivity|].
  destruct rest as [|q rest]; [exact Hp|].
  change (join sep (p :: q :: rest)) with (p +:+ sep +:+ join sep (q :: rest)).
  rewrite !has_nl_app, Hp, Hs, IH. reflexivity.
Qed.

Lemma char_count_drop_chars k s : char_count (drop_chars k s) = char_count s - k.
Proof.
  revert k. induction s as [|c r IH]; intros k; [reflexivity|].
  cbn [drop_chars char_count]. destruct (is_continuation c) eqn:E.
  - rewrite IH. reflexivity.
  - destruct k as [|k].
    + cbn [char_count]. rewrite E. lia.
    + rewrite IH. lia.
Qed.

Lemma has_nl_drop_chars k s : has_nl s = false -> has_nl (drop_chars k s) = false.
Proof.
  revert k. induction s as [|c r IH]; intros k; [reflexivity|].
  rewrite has_nl_cons. intros H. apply orb_false_elim in H as [Hc Hr].
  cbn [drop_chars]. destruct (is_continuation c); [apply IH; exact Hr|].
  destruct k; [|apply IH; exact Hr].
  rewrite has_nl_cons, Hc, Hr. reflexivity.
Qed.

(** Lines that hold no line break are the lines of their join. *)
Lemma split_nl_join ls :
  ls <> [] -> Forall (fun l => has_nl l = false) ls -> split_nl (join nl ls) = ls.
Proof.
  intros Hne HF. induction HF as [|p rest Hp _ IH]; [congruence|].
  destruct rest as [|q rest]; [apply split_nl_one_line; exact Hp|].
  change (join nl (p :: q :: rest)) with (p +:+ nl +:+ join nl (q :: rest)).
  rewrite split_nl_app, (split_nl_one_line p Hp), IH by discriminate. reflexivity.
Qed.

(** ** The width of the lines of a frame *)

Lemma glyph_ok_spec g : glyph_ok g = true -> char_count g = 1 /\ has_nl g = false.
Proof.
  unfold glyph_ok. intros H. apply andb_prop in H as [H1 H2].
  apply Nat.eqb_eq in H1. apply negb_true_iff in H2. split; assumption.
Qed.

Lemma glyphs_ok_spec g :
  glyphs_ok g = true ->
  glyph_ok (TableRenderer.top_left g) = true /\
  glyph_ok (TableRenderer.top_mid g) = true /\
  glyph_ok (TableRenderer.top_right g) = true /\
  glyph_ok (TableRenderer.sep_left g) = true /\
  glyph_ok (TableRenderer.sep_mid g) = true /\
  glyph_ok (TableRenderer.sep_right g) = true /\
  glyph_ok (TableRenderer.bottom_left g) = true /\
  glyph_ok (TableRenderer.bottom_mid g) = true /\
  glyph_ok (TableRenderer.bottom_right g) = true /\
  glyph_ok (TableRenderer.horizontal g) = true /\
  glyph_ok (TableRenderer.vertical g) = true.
Proof.
  unfold glyphs_ok. rewrite !andb_true_iff. tauto.
Qed.

Lemma glyphs_of_ok style : glyphs_ok (TableRenderer.glyphs_of style) = true.
Proof. destruct style; reflexivity. Qed.

Lemma cell_line_width c k :
  char_count (nth k (TableRenderer.cell_lines c) EmptyString) <= TableRenderer.cell_width c.
Proof.
  unfold TableRenderer.cell_width.
  pose proof (proj1 (list_max_le (map char_count (TableRenderer.cell_lines c)) _)
                (Nat.le_refl _)) as HF.
  destruct (nth_in_or_default k (TableRenderer.cell_lines c) EmptyString) as [Hin | ->].
  - rewrite List.Forall_forall in HF. apply HF. apply in_map. exact Hin.
  - cbn. lia.
Qed.

Lemma cell_line_one_line c k :
  has_nl (nth k (TableRenderer.cell_lines c) EmptyString) = false.
Proof.
  destruct (nth_in_or_default k (TableRenderer.cell_lines c) EmptyString) as [Hin | ->].
  - pose proof (split_nl_pieces c) as HF. rewrite List.Forall_forall in HF.
    apply HF. exact Hin.
  - reflexivity.
Qed.

Lemma pad_cell_width w line :
  char_count line <= w -> char_count (TableRenderer.pad_cell w line) = w + 2.
Proof.
  intros H. unfold TableRenderer.pad_cell.
  rewrite !char_count_app, char_count_repeat_str. cbn. lia.
Qed.

Lemma pad_cell_one_line w line :
  has_nl line = false -> has_nl (TableRenderer.pad_cell w line) = false.
Proof.
  intros H. unfold TableRenderer.pad_cell.
  rewrite !has_nl_app, H, has_nl_repeat_str by reflexivity. reflexivity.
Qed.

(** The cells of a row that fits, padded: as wide as the columns ask. *)
Lemma padded_cells ws r k :
  fits ws r ->
  let parts :=
    zip_with (fun w c => TableRenderer.pad_cell w (nth k (TableRenderer.cell_lines c)
                                                     EmptyString)) ws r in
  list_sum (map char_count parts) = list_sum (map (fun w => w + 2) ws) /\
  length parts = length ws /\
  Forall (fun p => has_nl p = false) parts.
Proof.
  intros HF. induction HF as [|w c ws r Hw _ IH]; cbn zeta.
  - repeat split. constructor.
  - cbn zeta in IH. destruct IH as (IH1 & IH2 & IH3).
    cbn [zip_with map length].
    change (list_sum (?a :: ?l)) with (a + list_sum l).
    rewrite IH1, IH2, pad_cell_width by (eapply Nat.le_trans; [apply cell_line_width|exact Hw]).
    repeat split. constructor; [|exact IH3].
    apply pad_cell_one_line, cell_line_one_line.
Qed.

Lemma border_cells hz ws :
  char_count hz = 1 -> has_nl hz = false ->
  let parts := map (fun w => repeat_str hz (w + 2)) ws in
  list_sum (map char_count parts) = list_sum (map (fun w => w + 2) ws) /\
  length parts = length ws /\
  Forall (fun p => has_nl p = false) parts.
Proof.
  intros Hc Hn. cbn zeta. induction ws as [|w ws (IH1 & IH2 & IH3)].
  - repeat split. constructor.
  - cbn [map length].
    change (list_sum (?a :: ?l)) with (a + list_sum l).
    rewrite IH1, IH2, char_count_repeat_str, Hc.
    repeat split; [lia|]. constructor; [|exact IH3].
    apply has_nl_repeat_str. exact Hn.
Qed.

Lemma inner_border_width mid hz ws extra :
  glyph_ok mid = true -> glyph_ok hz = true ->
  char_count (TableRenderer.inner_border mid hz ws extra)
    = TableRenderer.natural_width ws + extra /\
  has_nl (TableRenderer.inner_border mid hz ws extra) = false.
Proof.
  intros Hm Hh. apply glyph_ok_spec in Hm as [Hm1 Hm2], Hh as [Hh1 Hh2].
  destruct (border_cells hz ws Hh1 Hh2) as (B1 & B2 & B3).
  unfold TableRenderer.inner_border, TableRenderer.natural_width. split.
  - rewrite char_count_app, char_count_join, char_count_repeat_str, B1, B2, Hm1, Hh1. lia.
  - rewrite has_nl_app, has_nl_join, has_nl_repeat_str by assumption. reflexivity.
Qed.

Lemma border_line_width left mid right hz ws extra :
  glyph_ok left = true -> glyph_ok mid = true -> glyph_ok right = true ->
  glyph_ok hz = true ->
  char_count (TableRenderer.border_line left mid right hz ws extra)
    = TableRenderer.natural_width ws + extra + 2 /\
  has_nl (TableRenderer.border_line left mid right hz ws extra) = false.
Proof.
  intros Hl Hm Hr Hh.
  destruct (inner_border_width mid hz ws extra Hm Hh) as [I1 I2].
  apply glyph_ok_spec in Hl as [Hl1 Hl2], Hr as [Hr1 Hr2].
  unfold TableRenderer.border_line. split.
  - rewrite !char_count_app, I1, Hl1, Hr1. lia.
  - rewrite !has_nl_app, I2, Hl2, Hr2. reflexivity.
Qed.

Lemma top_line_width g title ws :
  glyphs_ok g = true ->
  (forall t, title = Some t -> has_nl t = false) ->
  let extra := TableRenderer.extra_width title ws in
  char_count (TableRenderer.top_line g title ws extra)
    = TableRenderer.natural_width ws + extra + 2 /\
  has_nl (TableRenderer.top_line g title ws extra) = false.
Proof.
  intros Hg Ht. cbn zeta.
  destruct (glyphs_ok_spec g Hg) as (Gtl & Gtm & Gtr & _ & _ & _ & _ & _ & _ & Ghz & _).
  destruct title as [t|]; cbn [TableRenderer.top_line TableRenderer.extra_width].
  - destruct (inner_border_width (TableRenderer.top_mid g) (TableRenderer.horizontal g)
                ws (char_count t - TableRenderer.natural_width ws) Gtm Ghz) as [I1 I2].
    pose proof (glyph_ok_spec _ Gtl) as [L1 L2].
    pose proof (glyph_ok_spec _ Gtr) as [R1 R2].
    split.
    + rewrite !char_count_app, char_count_drop_chars, I1, L1, R1. lia.
    + rewrite !has_nl_app, has_nl_drop_chars, L2, R2, (Ht t eq_refl) by assumption.
      reflexivity.
  - apply border_line_width; assumption.
Qed.

Lemma physical_line_width g ws extra r k :
  glyphs_ok g = true -> fits ws r ->
  char_count (TableRenderer.physical_line g ws extra r k)
    = TableRenderer.natural_width ws + extra + 2 /\
  has_nl (TableRenderer.physical_line g ws extra r k) = false.
Proof.
  intros Hg Hf.
  destruct (glyphs_ok_spec g Hg) as (_ & _ & _ & _ & _ & _ & _ & _ & _ & _ & Gv).
  pose proof (glyph_ok_spec _ Gv) as [V1 V2].
  destruct (padded_cells ws r k Hf) as (P1 & P2 & P3).
  unfold TableRenderer.physical_line, TableRenderer.natural_width. split.
  - rewrite !char_count_app, char_count_join, char_count_repeat_str, P1, P2, V1. cbn. lia.
  - rewrite !has_nl_app, has_nl_join, has_nl_repeat_str, V2 by first [assumption|reflexivity].
    reflexivity.
Qed.

(** Every line of a frame whose rows fit the column widths has the same
    number of characters and holds no line break. *)
Lemma frame_lines_width g title ws headers rows :
  glyphs_ok g = true ->
  (forall t, title = Some t -> has_nl t = false) ->
  (forall hd, headers = Some hd -> fits ws hd) ->
  Forall (fits ws) rows ->
  Forall (fun l =>
            char_count l
              = TableRenderer.natural_width ws + TableRenderer.extra_width title ws + 2 /\
            has_nl l = false)
    (TableRenderer.frame_lines g title ws headers rows).
Proof.
  intros Hg Ht Hh Hr. unfold TableRenderer.frame_lines. cbn zeta.
  assert (Hrow : forall r, fits ws r ->
            Forall (fun l =>
              char_count l
                = TableRenderer.natural_width ws + TableRenderer.extra_width title ws + 2 /\
              has_nl l = false)
              (TableRenderer.row_lines g ws (TableRenderer.extra_width title ws) r)).
  { intros r Hf. unfold TableRenderer.row_lines. apply List.Forall_forall.
    intros l Hl. apply in_map_iff in Hl as (k & <- & _).
    apply physical_line_width; assumption. }
  assert (Hb : forall left mid right,
            glyph_ok left = true -> glyph_ok mid = true -> glyph_ok right = true ->
            char_count (TableRenderer.border_line left mid right (TableRenderer.horizontal g)
                          ws (TableRenderer.extra_width title ws))
              = TableRenderer.natural_width ws + TableRenderer.extra_width title ws + 2 /\
            has_nl (TableRenderer.border_line left mid right (TableRenderer.horizontal g)
                      ws (TableRenderer.extra_width title ws)) = false).
  { intros. apply border_line_width; try assumption.
    apply (glyphs_ok_spec g Hg). }
  destruct (glyphs_ok_spec g Hg) as (_ & _ & _ & Gsl & Gsm & Gsr & Gbl & Gbm & Gbr & _ & _).
  constructor; [apply top_line_width; assumption|].
  apply Forall_app. split; [|apply Forall_app; split].
  - destruct headers as [hd|]; [|constructor].
    apply Forall_app. split; [apply Hrow, Hh; reflexivity|].
    constructor; [|constructor]. apply Hb; assumption.
  - apply List.Forall_forall. intros l Hl. apply in_concat in Hl as (ls & Hls & Hl).
    apply in_map_iff in Hls as (r & <- & Hr').
    rewrite List.Forall_forall in Hr. specialize (Hrow r (Hr r Hr')).
    rewrite List.Forall_forall in Hrow. apply Hrow. exact Hl.
  - constructor; [|constructor]. apply Hb; assumption.
Qed.

(** ** Column widths and the shape check *)

Lemma col_widths_length n rows :
  Forall (fun r => length r = n) rows -> length (TableRenderer.col_widths n rows) = n.
Proof.
  intros HF. induction HF as [|r rest Hr _ IH]; cbn [TableRenderer.col_widths].
  - apply repeat_length.
  - rewrite length_zip_with, length_map, IH, Hr. apply Nat.min_id.
Qed.

Lemma fits_zip_max_l (r : list string) (W : list nat) :
  length r = length W ->
  fits (zip_with Nat.max (map TableRenderer.cell_width r) W) r.
Proof.
  revert W. induction r as [|c r IH]; intros [|w W] Hl; try discriminate.
  - constructor.
  - cbn [map zip_with]. constructor; [lia|]. apply IH. cbn in Hl. lia.
Qed.

Lemma fits_zip_max_r (A W : list nat) (r : list string) :
  fits W r -> length A = length W -> fits (zip_with Nat.max A W) r.
Proof.
  intros HF. revert A. induction HF as [|w c W r Hw _ IH]; intros [|a A] Hl; try discriminate.
  - constructor.
  - cbn [zip_with]. constructor; [lia|]. apply IH. cbn in Hl. lia.
Qed.

(** Rows of [n] cells each fit the column widths computed over them. *)
Lemma col_widths_fits n rows :
  Forall (fun r => length r = n) rows ->
  Forall (fits (TableRenderer.col_widths n rows)) rows.
Proof.
  intros HF. induction HF as [|r rest Hr Hrest IH]; [constructor|].
  cbn [TableRenderer.col_widths].
  pose proof (col_widths_length n rest Hrest) as Hl.
  constructor.
  - apply fits_zip_max_l. congruence.
  - apply List.Forall_forall. intros r' Hr'. rewrite List.Forall_forall in IH.
    apply fits_zip_max_r; [apply IH; exact Hr'|]. rewrite length_map. congruence.
Qed.

Lemma check_shape_Ok n i rows u :
  TableRenderer.check_shape n i rows = Ok u -> Forall (fun r => length r = n) rows.
Proof.
  revert i. induction rows as [|r rest IH]; intros i H; [constructor|].
  cbn [TableRenderer.check_shape] in H.
  destruct (Nat.eqb (length r) n) eqn:E; [|discriminate].
  apply Nat.eqb_eq in E. constructor; [exact E|]. eapply IH. exact H.
Qed.

Lemma check_shape_same_length n i rows :
  Forall (fun r => length r = n) rows -> TableRenderer.check_shape n i rows = Ok tt.
Proof.
  intros HF. revert i. induction HF as [|r rest Hr _ IH]; intros i; [reflexivity|].
  cbn [TableRenderer.check_shape]. rewrite (proj2 (Nat.eqb_eq _ _) Hr). apply IH.
Qed.

(** A mismatch is reported for the first row that has another cell count. *)
Lemma check_shape_mismatch n i rows :
  ~ Forall (fun r => length r = n) rows ->
  exists msg, TableRenderer.check_shape n i rows = Raise (Foreign "ShapeError" msg).
Proof.
  revert i. induction rows as [|r rest IH]; intros i H.
  - exfalso. apply H. constructor.
  - cbn [TableRenderer.check_shape]. destruct (Nat.eqb (length r) n) eqn:E.
    + apply IH. intros HF. apply H. constructor; [apply Nat.eqb_eq; exact E|exact HF].
    + eexists. reflexivity.
Qed.

(** ** What the core returns *)

Lemma frame_lines_nonempty g title ws headers rows :
  TableRenderer.frame_lines g title ws headers rows <> [].
Proof. discriminate. Qed.

(** When the core returns a text, its lines are the lines of the frame, drawn
    with the widths of the columns, and all of them have the same number of
    characters. *)
Lemma core_render_lines rows headers title style t :
  TableRenderer.render rows headers title style = Ok t ->
  (forall x, title = Some x -> has_nl x = false) ->
  split_nl t
    = TableRenderer.frame_lines (TableRenderer.glyphs_of style) title
        (widths_of headers rows) headers rows /\
  Forall (fun l =>
            char_count l
              = TableRenderer.natural_width (widths_of headers rows)
                + TableRenderer.extra_width title (widths_of headers rows) + 2)
    (split_nl t).
Proof.
  intros H Ht.
  assert (K : forall ws,
            (forall hd, headers = Some hd -> fits ws hd) -> Forall (fits ws) rows ->
            t = join nl (TableRenderer.frame_lines (TableRenderer.glyphs_of style) title ws
                           headers rows) ->
            split_nl t
              = TableRenderer.frame_lines (TableRenderer.glyphs_of style) title ws
                  headers rows /\
            Forall (fun l =>
                      char_count l
                        = TableRenderer.natural_width ws
                          + TableRenderer.extra_width title ws + 2)
              (split_nl t)).
  { intros ws Hh Hr ->.
    pose proof (frame_lines_width _ title ws headers rows (glyphs_of_ok style) Ht Hh Hr)
      as HF.
    rewrite split_nl_join.
    - split; [reflexivity|]. eapply Forall_impl; [exact HF|]. intros l [Hl _]. exact Hl.
    - apply frame_lines_nonempty.
    - eapply Forall_impl; [exact HF|]. intros l [_ Hl]. exact Hl. }
  unfold TableRenderer.render in H. unfold widths_of.
  change (match headers with Some hd => hd :: rows | None => rows end)
    with (all_rows headers rows) in H.
  destruct (all_rows headers rows) as [|first rest] eqn:A.
  - destruct headers; [discriminate|]. cbn in A. subst rows.
    injection H as <-. apply K; [discriminate|constructor|reflexivity].
  - cbn zeta in H.
    destruct (TableRenderer.check_shape (length first) 0 rows) as [u|e] eqn:C;
      [|discriminate].
    cbn [result_bind] in H.
    destruct (Nat.eqb (length first) 0); [discriminate|].
    injection H as <-.
    pose proof (check_shape_Ok _ _ _ _ C) as Hrows.
    assert (Hall : Forall (fun r => length r = length first) (first :: rest)).
    { rewrite <- A. destruct headers as [hd|]; cbn [all_rows] in *.
      - injection A as -> ->. constructor; [reflexivity|exact Hrows].
      - exact Hrows. }
    pose proof (col_widths_fits _ _ Hall) as Hfit.
    apply K; [| |reflexivity].
    + intros hd Hh. subst headers. cbn [all_rows] in A. injection A as -> ->.
      inversion Hfit; assumption.
    + destruct headers as [hd|]; cbn [all_rows] in A.
      * injection A as -> ->. inversion Hfit; assumption.
      * subst rows. exact Hfit.
Qed.

(** Rows of the same, positive cell count (or no rows at all) are drawn. *)
Lemma core_render_total rows headers title style n :
  Forall (fun r => length r = n) (all_rows headers rows) ->
  all_rows headers rows = [] \/ 0 < n ->
  exists t, TableRenderer.render rows headers title style = Ok t.
Proof.
  intros HF Hn. unfold TableRenderer.render.
  change (match headers with Some hd => hd :: rows | None => rows end)
    with (all_rows headers rows).
  destruct (all_rows headers rows) as [|first rest] eqn:A; [eexists; reflexivity|].
  cbn zeta. inversion HF as [|? ? Hfirst Hrest]; subst.
  assert (Hrows : Forall (fun r => length r = length first) rows).
  { destruct headers as [hd|]; cbn [all_rows] in A.
    - injection A as -> ->. exact Hrest.
    - subst rows. exact HF. }
  rewrite (check_shape_same_length _ 0 _ Hrows). cbn [result_bind].
  destruct Hn as [Hn|Hn]; [discriminate|].
  destruct (Nat.eqb (length first) 0) eqn:E; [apply Nat.eqb_eq in E; lia|].
  eexists. reflexivity.
Qed.

(** ** The header row and its separator *)





Lemma title_of_one_line title :
  one_line_title title = true ->
  exists ttl, title_of title = Ok ttl /\ (forall x, ttl = Some x -> has_nl x = false).
Proof.
  destruct title; try discriminate; cbn; intros H.
  - exists None. split; [reflexivity|discriminate].
  - exists (Some s). split; [reflexivity|]. intros x [= <-].
    apply negb_true_iff. exact H.
Qed.

Lemma all_rows_header_and_body rows :
  all_rows (fst (header_and_body rows)) (snd (header_and_body rows)) = rows.
Proof. destruct rows as [|hd [|r rest]]; reflexivity. Qed.

Lemma lines_of_wrap self t : lines_of (wrap self t) = padded_lines self (split_nl t).
Proof.
  unfold wrap, padded_lines. cbn. destruct (is_True (padding (_meta self))).
  - apply lines_of_padded.
  - apply lines_of_unpadded.
Qed.

Lemma same_width_const (ls : list string) n :
  Forall (fun l => char_count l = n) ls ->
  same_width ls = true /\
  (forall a b, In a ls -> In b ls -> char_count a = char_count b).
Proof.
  intros HF. split.
  - destruct HF as [|l rest Hl Hrest]; [reflexivity|]. cbn [same_width].
    apply forallb_forall. intros x Hx. rewrite List.Forall_forall in Hrest.
    apply Nat.eqb_eq. rewrite (Hrest x Hx), Hl. reflexivity.
  - intros a b Ha Hb. rewrite List.Forall_forall in HF.
    rewrite (HF a Ha), (HF b Hb). reflexivity.
Qed.

(** ** The frame is rectangular *)

(** C7, the counterexample: the table [[X]] is well formed and its style is
    "ascii"; with the default padding the returned string has the lines of the
    frame, five characters wide, between two empty lines. *)
Lemma padded_output_is_not_rectangular :
  ragged h_X (VList 1%positive) = false /\
  recognized (VStr "ascii") = true /\
  fst (render core_tables (handler_with_style (VStr "ascii")) (VList 1%positive) VNone
         VNone [] h_X)
  = Ok (nl +:+ (frame_X +:+ nl) +:+ nl) /\
  lines_of (nl +:+ (frame_X +:+ nl) +:+ nl)
  = [EmptyString; "+---+"; "| X |"; "+---+"; EmptyString] /\
  same_width (lines_of (nl +:+ (frame_X +:+ nl) +:+ nl)) = false.
Proof. repeat split; reflexivity. Qed.

(** C7, as amended: for every well-formed table (rows of string cells, all of
    the same positive cell count, or no row at all; a style that [style_map]
    knows; a title of one line, if any), render returns a string whose lines
    are the lines of the frame and, with padding, one empty line before them
    and one after; and every line of the frame has the same number of
    characters. *)
Theorem rendered_frame_is_rectangular self data headers title kw h sty rows n :
  insertion_ok h data headers = true ->
  _config self "style" (style (_meta self)) = Ok sty ->
  recognized sty = true ->
  table_of (heap_after h data headers) data = Ok rows ->
  Forall (fun r => length r = n) rows ->
  rows = [] \/ 0 < n ->
  one_line_title title = true ->
  exists s frame,
    fst (render core_tables self data headers title kw h) = Ok s /\
    lines_of s = padded_lines self frame /\
    frame <> [] /\
    same_width frame = true /\
    (forall a b, In a frame -> In b frame -> char_count a = char_count b).
Proof.
  intros Hi Hc Hr Hrows Hlen Hn Ht.
  destruct (style_map_getitem_recognized sty Hr) as [cls Hs].
  destruct (title_of_one_line title Ht) as (ttl & Httl & Hone).
  destruct (core_render_total (snd (header_and_body rows)) (fst (header_and_body rows))
              ttl (border_style cls) n) as [t Hcore].
  { rewrite all_rows_header_and_body. exact Hlen. }
  { rewrite all_rows_header_and_body. exact Hn. }
  assert (Htab : table core_tables cls (heap_after h data headers) data title = Ok t).
  { cbn [table core_tables]. rewrite Hrows. cbn [result_bind]. rewrite Httl. exact Hcore. }
  destruct (core_render_lines _ _ _ _ _ Hcore Hone) as [Hlines Hwidth].
  exists (wrap self t), (split_nl t).
  split; [|split; [|split]].
  - rewrite (render_selected_class core_tables self data headers title kw h sty cls Hi Hc Hs).
    rewrite Htab. reflexivity.
  - apply lines_of_wrap.
  - apply split_nl_nonempty.
  - eapply same_width_const. exact Hwidth.
Qed.

(** The spec's example in the Double style, with a title: NAME and AGE over
    Ann, 30 and Bo, 5. *)
Lemma rendered_frame_is_rectangular_witness :
  fst (render core_tables (handler_with_style (VStr "double")) (VList 1%positive)
         (VList 2%positive) (VStr "People") [] h_people)
    = Ok (nl +:+ ("╔People╦═════╗" +:+ nl +:+ "║ NAME ║ AGE ║" +:+ nl
                  +:+ "╠══════╬═════╣" +:+ nl +:+ "║ Ann  ║ 30  ║" +:+ nl
                  +:+ "║ Bo   ║ 5   ║" +:+ nl +:+ "╚══════╩═════╝" +:+ nl) +:+ nl) /\
  map char_count
    ["╔People╦═════╗"; "║ NAME ║ AGE ║"; "╠══════╬═════╣"; "║ Ann  ║ 30  ║";
     "║ Bo   ║ 5   ║"; "╚══════╩═════╝"]
    = [14; 14; 14; 14; 14; 14] /\
  exists s frame,
    fst (render core_tables (handler_with_style (VStr "double")) (VList 1%positive)
           (VList 2%positive) (VStr "People") [] h_people) = Ok s /\
    lines_of s = padded_lines (handler_with_style (VStr "double")) frame /\
    frame <> [] /\
    same_width frame = true /\
    (forall a b, In a frame -> In b frame -> char_count a = char_count b).
Proof.
  split; [reflexivity|]. split; [reflexivity|].
  apply (rendered_frame_is_rectangular (handler_with_style (VStr "double"))
           (VList 1%positive) (VList 2%positive) (VStr "People") [] h_people
           (VStr "double")
           [["NAME"; "AGE"]; ["Ann"; "30"]; ["Bo"; "5"]] 2).
  - reflexivity.
  - reflexivity.
  - reflexivity.
  - reflexivity.
  - repeat constructor.
  - right. lia.
  - reflexivity.
Defined.

(** ** The header row in the text *)




